(** * The namespace index of the generated documentation

    [doc/html/namespaces_dup.js] is one statement,
    [var namespaces_dup = [ ... ];], whose initialiser is an array
    literal of navigation entries.  This development embeds the
    JavaScript values the literal denotes, the literal itself as an
    expression, and the loading of the file as a classic script into a
    global environment, and then settles the properties stated about
    the file. *)

From Stdlib Require Import Ascii String Sorted.
From stdpp Require Import base option list strings gmap.

Set Warnings "-register-all".

(** ** JavaScript values *)

(** The values that occur in the file are [null], strings and arrays;
    [undefined] is what a hoisted [var] holds before its initialiser has
    run. *)
Inductive value : Type :=
| VUndefined : value
| VNull : value
| VStr : string -> value
| VArr : list value -> value.

(** ** The data of the file *)

Module Data.

(** Lines 3 to 18: the members listed under [AudioProcessor]. *)
Definition AudioProcessor_members : list value :=
  [ VArr [ VStr "audio_adsr_envelope"; VStr "namespace_audio_processor.html#ae008bec20dd3d0c1ded65275df5b80b8"; VNull ];
    VArr [ VStr "audio_generate_complex_wave"; VStr "namespace_audio_processor.html#a57c5af1354f319249f7916183e74b85a"; VNull ];
    VArr [ VStr "audio_generate_sawtooth_wave"; VStr "namespace_audio_processor.html#ac4306017cb43589f6e7da9992f207100"; VNull ];
    VArr [ VStr "audio_generate_sine_wave"; VStr "namespace_audio_processor.html#a335525d85a6fd00b3a94ebeb50093500"; VNull ];
    VArr [ VStr "audio_generate_square_wave"; VStr "namespace_audio_processor.html#a4d44152447a43e47ac594e0419214f5f"; VNull ];
    VArr [ VStr "audio_generate_string_wave"; VStr "namespace_audio_processor.html#a350edf8b29d7fb215d6e069fb228d4e1"; VNull ];
    VArr [ VStr "audio_multiply_gain"; VStr "namespace_audio_processor.html#a16c83eb3034d2a401d4e45e491c1b7c6"; VNull ];
    VArr [ VStr "audio_note_number_to_freq"; VStr "namespace_audio_processor.html#a78902f68a76e4f56fa41ccd42582ff05"; VNull ];
    VArr [ VStr "audio_rise_fall_envelope"; VStr "namespace_audio_processor.html#ac1ee62b21f986317dba3a16317fd0c82"; VNull ];
    VArr [ VStr "audio_stereo_gains"; VStr "namespace_audio_processor.html#af6ec1931586580f24c7483878e2e7bad"; VNull ];
    VArr [ VStr "audio_stereo_mix_in"; VStr "namespace_audio_processor.html#a97a7cc89215033302eb80d08856948d0"; VNull ];
    VArr [ VStr "adsr_attack_samples"; VStr "namespace_audio_processor.html#a7b0d5468caa4388b60aadeed2b5c9dbb"; VNull ];
    VArr [ VStr "adsr_decay_samples"; VStr "namespace_audio_processor.html#adc182a54eddbe1d15f16aec025fbfbf6"; VNull ];
    VArr [ VStr "adsr_release_samples"; VStr "namespace_audio_processor.html#a1a4186265ecee161a8823b2825018c63"; VNull ]
  ].

(** Lines 20 to 31: the members listed under [main]. *)
Definition main_members : list value :=
  [ VArr [ VStr "apply_adsr_envelope"; VStr "namespacemain.html#a64d9c6e0a696380378c51675821275a6"; VNull ];
    VArr [ VStr "apply_rise_fall_envelope"; VStr "namespacemain.html#afaf3e4e897be8cf79097bfec07a9a276"; VNull ];
    VArr [ VStr "apply_stereo"; VStr "namespacemain.html#aace46784eb538958d1ccc130fb4ff433"; VNull ];
    VArr [ VStr "compare_two_wave_files"; VStr "namespacemain.html#a7bf61d5ff3ea26ace8fe7bf69ba257c2"; VNull ];
    VArr [ VStr "create_waveform"; VStr "namespacemain.html#ab0ec5311a3c5fc9e0eadb63c1cc3a32c"; VNull ];
    VArr [ VStr "generate_song"; VStr "namespacemain.html#af46f5bb2c760f56a5e77da4c17ec1c69"; VNull ];
    VArr [ VStr "get_filename"; VStr "namespacemain.html#ae0652dd6046424e6df071c661d751f0f"; VNull ];
    VArr [ VStr "get_wave_parameters"; VStr "namespacemain.html#ac887e3e66faa66e5e64c6ec50bf9e078"; VNull ];
    VArr [ VStr "main"; VStr "namespacemain.html#aa7a58ac748c5293faa4d77a82b94d161"; VNull ];
    VArr [ VStr "print_main_menu"; VStr "namespacemain.html#a812f03cebb08e2b28db26c9882469c48"; VNull ]
  ].

(** Lines 2 to 34: the value of the initialiser. *)
Definition namespaces_dup : value :=
  VArr
  [ VArr [ VStr "AudioProcessor"; VStr "namespace_audio_processor.html"; VArr AudioProcessor_members ];
    VArr [ VStr "DataStructure"; VStr "namespace_data_structure.html"; VStr "namespace_data_structure" ];
    VArr [ VStr "main"; VStr "namespacemain.html"; VArr main_members ];
    VArr [ VStr "Song"; VStr "namespace_song.html"; VStr "namespace_song" ];
    VArr [ VStr "Wave"; VStr "namespace_wave.html"; VStr "namespace_wave" ]
  ].

End Data.

(** ** Reading the navigation tree *)

Module Nav.

(** The entries of an array; anything else has none. *)
Definition elements (v : value) : list value :=
  match v with
  | VArr es => es
  | _ => []
  end.

(** [e[0]], the display name. *)
Definition label (e : value) : option string :=
  match e with
  | VArr (VStr s :: _) => Some s
  | _ => None
  end.

(** [e[1]], the link target. *)
Definition target (e : value) : option string :=
  match e with
  | VArr (_ :: VStr s :: _) => Some s
  | _ => None
  end.

(** [e[2]], the child slot. *)
Definition child_slot (e : value) : option value :=
  match e with
  | VArr (_ :: _ :: c :: _) => Some c
  | _ => None
  end.

(** The entries listed in the child slot, when it holds an array. *)
Definition members (e : value) : list value :=
  match e with
  | VArr (_ :: _ :: VArr cs :: _) => cs
  | _ => []
  end.

(** An entry together with every entry nested below it, in file order. *)
Fixpoint subentries (e : value) : list value :=
  e :: match e with
       | VArr (_ :: _ :: VArr cs :: _) => flat_map subentries cs
       | _ => []
       end.

Definition all_entries (t : value) : list value :=
  flat_map subentries (elements t).

Definition labels (es : list value) : list string := omap label es.
Definition targets (es : list value) : list string := omap target es.

(** The first entry of [es] with display name [name]. *)
Definition entry_named (name : string) (es : list value) : option value :=
  List.find (fun e => bool_decide (label e = Some name)) es.

(** Number of levels of entries: 1 for an entry without listed members. *)
Fixpoint entry_depth (e : value) : nat :=
  S (match e with
     | VArr (_ :: _ :: VArr cs :: _) => max_list (map entry_depth cs)
     | _ => 0
     end).

Definition tree_depth (t : value) : nat :=
  max_list (map entry_depth (elements t)).

(** *** Link targets *)

(** [split_hash s] cuts [s] at its first ['#']: the page, and the
    fragment when there is one. *)
Fixpoint split_hash (s : string) : string * option string :=
  match s with
  | EmptyString => (EmptyString, None)
  | String c s' =>
      if Ascii.eqb c "#"%char then (EmptyString, Some s')
      else let '(p, f) := split_hash s' in (String c p, f)
  end.

Fixpoint ends_with (suffix s : string) : bool :=
  String.eqb s suffix ||
  match s with
  | EmptyString => false
  | String _ s' => ends_with suffix s'
  end.

(** An HTML page, or an anchor inside one. *)
Definition is_link_target (s : string) : bool :=
  let '(page, fragment) := split_hash s in
  ends_with ".html" page &&
  match fragment with
  | None => true
  | Some f => negb (String.eqb f "")
  end.

(** The fragments of the targets that have one. *)
Definition anchors (ts : list string) : list string :=
  omap (fun t => snd (split_hash t)) ts.

Fixpoint strip_prefix (p s : string) : option string :=
  match p, s with
  | EmptyString, _ => Some s
  | String a p', String b s' =>
      if Ascii.eqb a b then strip_prefix p' s' else None
  | String _ _, EmptyString => None
  end.

Definition is_lower_hex (c : ascii) : bool :=
  let n := nat_of_ascii c in
  (48 <=? n) && (n <=? 57) || (97 <=? n) && (n <=? 102).

(** ['a'] followed by 32 lowercase hexadecimal digits. *)
Definition is_member_anchor (f : string) : bool :=
  match f with
  | String c h =>
      Ascii.eqb c "a"%char && (String.length h =? 32) &&
      forallb is_lower_hex (list_ascii_of_string h)
  | EmptyString => false
  end.

(** *** Shapes of entries *)

Definition is_null (v : value) : bool :=
  match v with
  | VNull => true
  | _ => false
  end.

Definition is_string (v : value) : bool :=
  match v with
  | VStr _ => true
  | _ => false
  end.

(** A triple of a display name, a link target and a child slot; the
    slot is a list of entries of the same shape, or else satisfies
    [leaf]. *)
Fixpoint entry_shape (leaf : value -> bool) (e : value) : bool :=
  match e with
  | VArr [VStr _; VStr t; c] =>
      is_link_target t &&
      match c with
      | VArr cs => forallb (entry_shape leaf) cs
      | _ => leaf c
      end
  | _ => false
  end.

(** The shape as the interface description words it: the child slot is
    [null] or a list of child entries. *)
Definition entry_shape_stated : value -> bool := entry_shape is_null.

(** The shape with the child slot also allowed to be a string. *)
Definition entry_shape_built : value -> bool :=
  entry_shape (fun c => is_null c || is_string c).

(** A member entry of the namespace whose page is [page]. *)
Definition member_ok (page : string) (m : value) : bool :=
  match m with
  | VArr [VStr _; VStr t; VNull] =>
      match strip_prefix (page +:+ "#") t with
      | Some f => is_member_anchor f
      | None => false
      end
  | _ => false
  end.

(** Every member listed under the namespace entry [ns] is a member entry
    of the page of [ns]. *)
Definition members_ok (ns : value) : bool :=
  match target ns with
  | Some page => forallb (member_ok page) (members ns)
  | None => false
  end.

(** Every member listed under [ns] has a display name, and no two
    have the same. *)
Definition member_names_ok (ns : value) : bool :=
  bool_decide (length (labels (members ns)) = length (members ns) /\
               NoDup (labels (members ns))).

(** *** Case-insensitive order of display names *)

Definition lower_ascii (c : ascii) : ascii :=
  let n := nat_of_ascii c in
  if (65 <=? n) && (n <=? 90) then ascii_of_nat (n + 32) else c.

Fixpoint lower (s : string) : string :=
  match s with
  | EmptyString => EmptyString
  | String c s' => String (lower_ascii c) (lower s')
  end.

Definition ci_le (s t : string) : bool := String.leb (lower s) (lower t).
Definition ci_lt (s t : string) : bool := String.ltb (lower s) (lower t).

End Nav.

(** ** Loading the file *)

Module Js.

(** *** The syntax of the file *)

(** The file is written with three kinds of expression, all literals:
    [null], string literals and array literals. *)
Inductive expr : Type :=
| ENull : expr
| EStr : string -> expr
| EArr : list expr -> expr.

(** The only statement of the file: [var x = init;]. *)
Inductive stmt : Type :=
| SVar : string -> expr -> stmt.

(** Lines 2 to 34, token for token. *)
Definition initialiser : expr :=
  EArr [
      EArr [ EStr "AudioProcessor"; EStr "namespace_audio_processor.html"; EArr [
        EArr [ EStr "audio_adsr_envelope"; EStr "namespace_audio_processor.html#ae008bec20dd3d0c1ded65275df5b80b8"; ENull ];
        EArr [ EStr "audio_generate_complex_wave"; EStr "namespace_audio_processor.html#a57c5af1354f319249f7916183e74b85a"; ENull ];
        EArr [ EStr "audio_generate_sawtooth_wave"; EStr "namespace_audio_processor.html#ac4306017cb43589f6e7da9992f207100"; ENull ];
        EArr [ EStr "audio_generate_sine_wave"; EStr "namespace_audio_processor.html#a335525d85a6fd00b3a94ebeb50093500"; ENull ];
        EArr [ EStr "audio_generate_square_wave"; EStr "namespace_audio_processor.html#a4d44152447a43e47ac594e0419214f5f"; ENull ];
        EArr [ EStr "audio_generate_string_wave"; EStr "namespace_audio_processor.html#a350edf8b29d7fb215d6e069fb228d4e1"; ENull ];
        EArr [ EStr "audio_multiply_gain"; EStr "namespace_audio_processor.html#a16c83eb3034d2a401d4e45e491c1b7c6"; ENull ];
        EArr [ EStr "audio_note_number_to_freq"; EStr "namespace_audio_processor.html#a78902f68a76e4f56fa41ccd42582ff05"; ENull ];
        EArr [ EStr "audio_rise_fall_envelope"; EStr "namespace_audio_processor.html#ac1ee62b21f986317dba3a16317fd0c82"; ENull ];
        EArr [ EStr "audio_stereo_gains"; EStr "namespace_audio_processor.html#af6ec1931586580f24c7483878e2e7bad"; ENull ];
        EArr [ EStr "audio_stereo_mix_in"; EStr "namespace_audio_processor.html#a97a7cc89215033302eb80d08856948d0"; ENull ];
        EArr [ EStr "adsr_attack_samples"; EStr "namespace_audio_processor.html#a7b0d5468caa4388b60aadeed2b5c9dbb"; ENull ];
        EArr [ EStr "adsr_decay_samples"; EStr "namespace_audio_processor.html#adc182a54eddbe1d15f16aec025fbfbf6"; ENull ];
        EArr [ EStr "adsr_release_samples"; EStr "namespace_audio_processor.html#a1a4186265ecee161a8823b2825018c63"; ENull ]
      ] ];
      EArr [ EStr "DataStructure"; EStr "namespace_data_structure.html"; EStr "namespace_data_structure" ];
      EArr [ EStr "main"; EStr "namespacemain.html"; EArr [
        EArr [ EStr "apply_adsr_envelope"; EStr "namespacemain.html#a64d9c6e0a696380378c51675821275a6"; ENull ];
        EArr [ EStr "apply_rise_fall_envelope"; EStr "namespacemain.html#afaf3e4e897be8cf79097bfec07a9a276"; ENull ];
        EArr [ EStr "apply_stereo"; EStr "namespacemain.html#aace46784eb538958d1ccc130fb4ff433"; ENull ];
        EArr [ EStr "compare_two_wave_files"; EStr "namespacemain.html#a7bf61d5ff3ea26ace8fe7bf69ba257c2"; ENull ];
        EArr [ EStr "create_waveform"; EStr "namespacemain.html#ab0ec5311a3c5fc9e0eadb63c1cc3a32c"; ENull ];
        EArr [ EStr "generate_song"; EStr "namespacemain.html#af46f5bb2c760f56a5e77da4c17ec1c69"; ENull ];
        EArr [ EStr "get_filename"; EStr "namespacemain.html#ae0652dd6046424e6df071c661d751f0f"; ENull ];
        EArr [ EStr "get_wave_parameters"; EStr "namespacemain.html#ac887e3e66faa66e5e64c6ec50bf9e078"; ENull ];
        EArr [ EStr "main"; EStr "namespacemain.html#aa7a58ac748c5293faa4d77a82b94d161"; ENull ];
        EArr [ EStr "print_main_menu"; EStr "namespacemain.html#a812f03cebb08e2b28db26c9882469c48"; ENull ]
      ] ];
      EArr [ EStr "Song"; EStr "namespace_song.html"; EStr "namespace_song" ];
      EArr [ EStr "Wave"; EStr "namespace_wave.html"; EStr "namespace_wave" ]
  ].

(** Line 1 with its initialiser: the whole file. *)
Definition file : list stmt := [SVar "namespaces_dup" initialiser].

(** The value of a literal.  An array literal builds a fresh array and
    defines its elements on it one by one; nothing is read from the
    environment. *)
Fixpoint eval (e : expr) : value :=
  match e with
  | ENull => VNull
  | EStr s => VStr s
  | EArr es => VArr (map eval es)
  end.

Definition declared (st : stmt) : string :=
  match st with
  | SVar x _ => x
  end.

(** *** The global environment *)

(** A host function, by identity. *)
Definition fn : Type := nat.

(** What a binding holds: one of the values above, or any other
    JavaScript value (a number, a function, an object), by identity. *)
Inductive held : Type :=
| Known : value -> held
| Foreign : nat -> held.

(** An own property of the global object, with its attributes. *)
Inductive property : Type :=
| PData (v : held) (writable enumerable configurable : bool)
| PAccessor (getter setter : option fn) (enumerable configurable : bool).

(** The global environment a classic script is loaded into: the
    [let], [const] and [class] declarations of earlier scripts ([None]
    while not yet initialised), the own properties of the global
    object, whether the global object is extensible, and the names
    declared with [var] so far. *)
Record genv : Type := GEnv {
  lexical : gmap string (option held);
  props : gmap string property;
  extensible : bool;
  var_names : gset string
}.

Inductive error : Type :=
| SyntaxError : error
| TypeError : error.

(** Completion of a run: a result; a thrown error; or a call of the
    setter [f] on [v] from the environment [σ], after which the run is
    in the hands of that function. *)
Inductive outcome (A : Type) : Type :=
| Normal : A -> outcome A
| Throw : error -> outcome A
| Calls : fn -> value -> genv -> outcome A.
Arguments Normal {A} _.
Arguments Throw {A} _.
Arguments Calls {A} _ _ _.

#[export] Instance outcome_ret : MRet outcome := fun A a => Normal a.
#[export] Instance outcome_bind : MBind outcome := fun A B k m =>
  match m with
  | Normal a => k a
  | Throw err => Throw err
  | Calls f v σ => Calls f v σ
  end.
#[export] Instance outcome_fmap : FMap outcome := fun A B g m =>
  match m with
  | Normal a => Normal (g a)
  | Throw err => Throw err
  | Calls f v σ => Calls f v σ
  end.

(** *** Instantiating the declarations of a script *)

Definition has_lexical_declaration (x : string) (σ : genv) : bool :=
  bool_decide (is_Some (lexical σ !! x)).

(** A [var] can be declared when the global object has the property
    already, or can still be extended. *)
Definition can_declare_global_var (x : string) (σ : genv) : bool :=
  match props σ !! x with
  | Some _ => true
  | None => extensible σ
  end.

(** A name that is not yet a property becomes one, holding
    [undefined], writable, enumerable and not configurable; a property
    that exists is kept as it is.  The name is recorded as declared. *)
Definition create_global_var_binding (x : string) (σ : genv) : genv :=
  GEnv (lexical σ)
       (match props σ !! x with
        | Some _ => props σ
        | None =>
            if extensible σ
            then <[x := PData (Known VUndefined) true true false]> (props σ)
            else props σ
        end)
       (extensible σ)
       ({[x]} ∪ var_names σ).

(** Before any statement runs: a [var] name that has a lexical
    declaration is a [SyntaxError], one that cannot be declared is a
    [TypeError], and only when every name has passed both checks are
    the bindings created. *)
Definition global_declaration_instantiation
    (names : list string) (σ : genv) : outcome genv :=
  if existsb (fun x => has_lexical_declaration x σ) names
  then Throw SyntaxError
  else if forallb (fun x => can_declare_global_var x σ) names
  then Normal (foldl (fun s x => create_global_var_binding x s) σ names)
  else Throw TypeError.

(** *** Running the statements *)

(** The assignment of the initialiser's value, in a script that is not
    in strict mode.  The name has no lexical declaration, so it is
    looked up on the global object: a writable data property takes the
    value and keeps its attributes; a property that is not writable, or
    an accessor without setter, is left alone without an error; a
    setter is called.  A [var] name is an own property by the time its
    statement runs; for a name that is none, the last case creates an
    ordinary property if the object can be extended (what the object
    inherits is not part of the environment). *)
Definition put_value (x : string) (v : value) (σ : genv) : outcome genv :=
  match props σ !! x with
  | Some (PData _ true e c) =>
      Normal (GEnv (lexical σ) (<[x := PData (Known v) true e c]> (props σ))
                   (extensible σ) (var_names σ))
  | Some (PData _ false _ _) => Normal σ
  | Some (PAccessor _ (Some f) _ _) => Calls f v σ
  | Some (PAccessor _ None _ _) => Normal σ
  | None =>
      if extensible σ
      then Normal (GEnv (lexical σ) (<[x := PData (Known v) true true true]> (props σ))
                        (extensible σ) (var_names σ))
      else Normal σ
  end.

Definition exec_stmt (st : stmt) (σ : genv) : outcome genv :=
  match st with
  | SVar x init => put_value x (eval init) σ
  end.

Fixpoint exec_stmts (sts : list stmt) (σ : genv) : outcome genv :=
  match sts with
  | [] => mret σ
  | st :: rest => σ' ← exec_stmt st σ; exec_stmts rest σ'
  end.

Definition run_script (sts : list stmt) (σ : genv) : outcome genv :=
  σ' ← global_declaration_instantiation (map declared sts) σ;
  exec_stmts sts σ'.

(** *** Reading the result *)

(** The value of the global data property [x]. *)
Definition global_value (x : string) (σ : genv) : option held :=
  match props σ !! x with
  | Some (PData v _ _ _) => Some v
  | _ => None
  end.

(** What [x] holds once the file has been loaded into [σ]. *)
Definition bound_after (x : string) (σ : genv) : outcome (option held) :=
  global_value x <$> run_script file σ.

(** *** Environments a page can have set up before the file loads *)

(** Nothing of the name, on a global object that can be extended. *)
Definition fresh_env : genv := GEnv ∅ ∅ true ∅.

(** After [let namespaces_dup = 0;] in an earlier script. *)
Definition env_with_let : genv :=
  GEnv {["namespaces_dup" := Some (Foreign 0)]} ∅ true ∅.

(** After [Object.preventExtensions(globalThis)]. *)
Definition env_not_extensible : genv := GEnv ∅ ∅ false ∅.

(** After [Object.defineProperty(globalThis, "namespaces_dup",
    {value: null})]. *)
Definition env_read_only : genv :=
  GEnv ∅ {["namespaces_dup" := PData (Known VNull) false false false]} true ∅.





End Js.

(** ** Checks a consumer of the index relies on *)

Module Lint.

Import Nav.

(** The page and the fragment of a link target. *)
Definition page_of (t : string) : string := fst (split_hash t).
Definition fragment_of (t : string) : option string := snd (split_hash t).

(** The child slot of [e] is [null] exactly when its target has a
    fragment. *)
Definition leaf_iff_anchor (e : value) : bool :=
  match target e, child_slot e with
  | Some t, Some c =>
      Bool.eqb (is_null c)
        (match fragment_of t with Some _ => true | None => false end)
  | _, _ => false
  end.

(** A string in the child slot of [e] is the target of [e] without its
    [".html"]. *)
Definition slot_names_page (e : value) : bool :=
  match child_slot e with
  | Some (VStr s) =>
      match target e with
      | Some t => String.eqb t (s +:+ ".html")
      | None => false
      end
  | _ => true
  end.

(** The page of the target of [e] is the target of one of [tops]. *)
Definition page_listed (tops : list value) (e : value) : bool :=
  match target e with
  | Some t => bool_decide (page_of t ∈ targets tops)
  | None => false
  end.

End Lint.

Import Data Nav Js Lint.

(** * Properties *)

(** ** Auxiliary facts *)

Section Helpers.

Lemma forallb_elem_of {A} (f : A -> bool) (l : list A) (x : A) :
  forallb f l = true -> x ∈ l -> f x = true.
Proof.
  intros Hall Hx. apply list_elem_of_In in Hx.
  revert x Hx. by apply forallb_forall.
Qed.

Lemma append_String_assoc (p q r : string) :
  (p +:+ q) +:+ r = p +:+ q +:+ r.
Proof.
  induction p as [|c p IH]; [done |].
  change (String c ((p +:+ q) +:+ r) = String c (p +:+ q +:+ r)).
  by f_equal.
Qed.

Lemma strip_prefix_Some (p s r : string) :
  strip_prefix p s = Some r -> s = p +:+ r.
Proof.
  revert s. induction p as [|a p IH]; intros s; simpl.
  - by intros [= ->].
  - destruct s as [|b s]; [done |].
    destruct (Ascii.eqb a b) eqn:Hab; [| done].
    apply Ascii.eqb_eq in Hab as ->. by intros ->%IH.
Qed.

(** What [member_ok] checks, spelled out. *)
Lemma member_ok_spec (page : string) (m : value) :
  member_ok page m = true ->
  exists name h,
    m = VArr [VStr name; VStr (page +:+ "#" +:+ "a" +:+ h); VNull] /\
    String.length h = 32 /\
    forallb is_lower_hex (list_ascii_of_string h) = true.
Proof.
  destruct m as [| |?|[|[| |name|?] [|[| |t|?] [|[| |?|?] [|? ?]]]]]; try done.
  simpl. destruct (strip_prefix _ t) as [f|] eqn:Hf; [| done].
  apply strip_prefix_Some in Hf as ->.
  destruct f as [|c h]; simpl; [done |].
  intros [[Hc Hlen]%andb_prop Hhex]%andb_prop.
  apply Ascii.eqb_eq in Hc as ->. apply Nat.eqb_eq in Hlen.
  exists name, h. by rewrite append_String_assoc.
Qed.


End Helpers.

Ltac by_evaluation := vm_compute; reflexivity.
Ltac by_decision := apply (bool_decide_unpack _); vm_compute; exact I.

(** ** The navigation tree *)

(** C1, as stated, fails: the entry of line 19 for [DataStructure] is an
    entry of the tree whose third component is the string
    ["namespace_data_structure"], neither [null] nor a list of entries. *)
Lemma child_slot_string_counterexample :
  VArr [VStr "DataStructure"; VStr "namespace_data_structure.html";
        VStr "namespace_data_structure"] ∈ all_entries namespaces_dup /\
  child_slot (VArr [VStr "DataStructure"; VStr "namespace_data_structure.html";
                    VStr "namespace_data_structure"])
    = Some (VStr "namespace_data_structure") /\
  entry_shape_stated
    (VArr [VStr "DataStructure"; VStr "namespace_data_structure.html";
           VStr "namespace_data_structure"]) = false.
Proof.
  split; [| split; reflexivity].
  apply list_elem_of_In. vm_compute. tauto.
Qed.

(** C1, amended: every entry of the tree, top-level or nested, is a
    triple of a display-name string, a link-target string that is an
    HTML page or an anchor in one, and a third component that is
    [null], a string, or a list of entries of the same shape. *)
Theorem entries_are_triples (e : value) :
  e ∈ all_entries namespaces_dup ->
  exists name tgt c,
    e = VArr [VStr name; VStr tgt; c] /\
    is_link_target tgt = true /\
    (c = VNull \/ (exists s, c = VStr s) \/
     exists cs, c = VArr cs /\ Forall (fun m => entry_shape_built m = true) cs).
Proof.
  intros He.
  assert (entry_shape_built e = true) as Hshape.
  { revert He. apply forallb_elem_of. by_evaluation. }
  clear He. unfold entry_shape_built in Hshape.
  destruct e as [| |?|[|[| |name|?] [|[| |tgt|?] [|c [|? ?]]]]]; try done.
  simpl in Hshape. apply andb_prop in Hshape as [Htgt Hc].
  exists name, tgt, c. split; [done |]. split; [done |].
  destruct c as [| | s | cs]; try done.
  - by left.
  - right; left. by exists s.
  - right; right. exists cs. split; [done |].
    apply Forall_forall. intros m Hm. by apply (forallb_elem_of _ cs).
Qed.

Lemma entries_are_triples_witness :
  VArr [VStr "Song"; VStr "namespace_song.html"; VStr "namespace_song"]
    ∈ all_entries namespaces_dup /\
  exists name tgt c,
    VArr [VStr "Song"; VStr "namespace_song.html"; VStr "namespace_song"]
      = VArr [VStr name; VStr tgt; c] /\
    is_link_target tgt = true /\
    (c = VNull \/ (exists s, c = VStr s) \/
     exists cs, c = VArr cs /\ Forall (fun m => entry_shape_built m = true) cs).
Proof.
  assert (VArr [VStr "Song"; VStr "namespace_song.html"; VStr "namespace_song"]
            ∈ all_entries namespaces_dup) as H.
  { apply list_elem_of_In. vm_compute. tauto. }
  split; [exact H | exact (entries_are_triples _ H)].
Defined.

(** C2: the value is a list of five entries, and their display names
    are AudioProcessor, DataStructure, Song, Wave and main, each once
    and no other. *)
Theorem top_level_namespaces :
  exists es,
    namespaces_dup = VArr es /\
    length es = 5 /\
    labels es ≡ₚ ["AudioProcessor"; "DataStructure"; "Song"; "Wave"; "main"].
Proof.
  eexists. split; [reflexivity |]. split; [reflexivity |].
  change (["AudioProcessor"; "DataStructure"] ++ "main" :: ["Song"; "Wave"]
          ≡ₚ ["AudioProcessor"; "DataStructure"] ++ ["Song"; "Wave"] ++ ["main"]).
  f_equiv. apply Permutation_cons_append.
Qed.

(** C3: every entry has a link target, the link targets of all the
    entries of the tree are pairwise distinct, and so are the fragments
    of the in-page anchors among them. *)
Theorem link_targets_distinct :
  length (targets (all_entries namespaces_dup))
    = length (all_entries namespaces_dup) /\
  NoDup (targets (all_entries namespaces_dup)) /\
  NoDup (anchors (targets (all_entries namespaces_dup))).
Proof. split; [reflexivity |]. split; by_decision. Qed.

(** C4: the entry named AudioProcessor lists members named
    audio_generate_sine_wave and audio_adsr_envelope, and the entry
    named main lists members named generate_song and
    compare_two_wave_files. *)
Theorem listed_members :
  exists ap mn,
    entry_named "AudioProcessor" (elements namespaces_dup) = Some ap /\
    entry_named "main" (elements namespaces_dup) = Some mn /\
    "audio_generate_sine_wave" ∈ labels (members ap) /\
    "audio_adsr_envelope" ∈ labels (members ap) /\
    "generate_song" ∈ labels (members mn) /\
    "compare_two_wave_files" ∈ labels (members mn).
Proof.
  eexists _, _. split; [by_evaluation |]. split; [by_evaluation |].
  repeat split; by_decision.
Qed.

(** C8: the display names of the top-level entries are, in file order,
    AudioProcessor, DataStructure, main, Song, Wave, and each precedes
    all the later ones when letter case is ignored. *)
Theorem top_level_order :
  labels (elements namespaces_dup)
    = ["AudioProcessor"; "DataStructure"; "main"; "Song"; "Wave"] /\
  StronglySorted (fun s t => ci_lt s t = true)
    (labels (elements namespaces_dup)).
Proof.
  split; [reflexivity |].
  change (labels (elements namespaces_dup))
    with ["AudioProcessor"; "DataStructure"; "main"; "Song"; "Wave"].
  repeat (constructor; [| repeat (constructor; [by_evaluation |]); constructor]).
  constructor.
Qed.

(** C9: the tree has two levels, and every member entry listed under a
    top-level entry has [null] as its third component, lists nothing
    itself, and links to the page of its namespace followed by ['#'],
    the letter ['a'] and 32 lowercase hexadecimal digits. *)
Theorem member_entries :
  tree_depth namespaces_dup = 2 /\
  forall ns m,
    ns ∈ elements namespaces_dup -> m ∈ members ns ->
    child_slot m = Some VNull /\
    members m = [] /\
    exists page h,
      target ns = Some page /\
      target m = Some (page +:+ "#" +:+ "a" +:+ h) /\
      String.length h = 32 /\
      forall c, c ∈ list_ascii_of_string h -> is_lower_hex c = true.
Proof.
  split; [reflexivity |].
  intros ns m Hns Hm.
  assert (members_ok ns = true) as Hok.
  { revert Hns. apply forallb_elem_of. by_evaluation. }
  unfold members_ok in Hok.
  destruct (target ns) as [page|]; [| done].
  apply (forallb_elem_of _ _ m) in Hok; [| done].
  apply member_ok_spec in Hok as (name & h & -> & Hlen & Hhex).
  split; [done |]. split; [done |].
  exists page, h. repeat split; [done |].
  intros c Hc. by apply (forallb_elem_of _ (list_ascii_of_string h)).
Qed.

Lemma member_entries_witness :
  VArr [VStr "main"; VStr "namespacemain.html"; VArr main_members]
    ∈ elements namespaces_dup /\
  VArr [VStr "generate_song";
        VStr "namespacemain.html#af46f5bb2c760f56a5e77da4c17ec1c69"; VNull]
    ∈ members (VArr [VStr "main"; VStr "namespacemain.html"; VArr main_members]) /\
  exists page h,
    page = "namespacemain.html" /\
    "namespacemain.html#af46f5bb2c760f56a5e77da4c17ec1c69"
      = page +:+ "#" +:+ "a" +:+ h /\
    String.length h = 32.
Proof.
  assert (VArr [VStr "main"; VStr "namespacemain.html"; VArr main_members]
            ∈ elements namespaces_dup) as Hns.
  { apply list_elem_of_In. vm_compute. tauto. }
  assert (VArr [VStr "generate_song";
                VStr "namespacemain.html#af46f5bb2c760f56a5e77da4c17ec1c69"; VNull]
            ∈ members (VArr [VStr "main"; VStr "namespacemain.html";
                             VArr main_members])) as Hm.
  { apply list_elem_of_In. vm_compute. tauto. }
  split; [exact Hns |]. split; [exact Hm |].
  destruct (proj2 member_entries _ _ Hns Hm)
    as (_ & _ & page & h & Hpage & Htgt & Hlen & _).
  exists page, h. simpl in Hpage, Htgt.
  split; [congruence |]. split; [congruence | exact Hlen].
Defined.

(** C10: within the child list of each top-level entry every member has
    a display name, and these names are pairwise distinct. *)
Theorem member_names_distinct (ns : value) :
  ns ∈ elements namespaces_dup ->
  length (labels (members ns)) = length (members ns) /\
  NoDup (labels (members ns)).
Proof.
  intros Hns.
  assert (member_names_ok ns = true) as Hok.
  { revert Hns. apply forallb_elem_of. by_evaluation. }
  by apply bool_decide_eq_true in Hok.
Qed.

Lemma member_names_distinct_witness :
  VArr [VStr "main"; VStr "namespacemain.html"; VArr main_members]
    ∈ elements namespaces_dup /\
  length (labels main_members) = 10 /\
  NoDup (labels main_members).
Proof.
  assert (VArr [VStr "main"; VStr "namespacemain.html"; VArr main_members]
            ∈ elements namespaces_dup) as Hns.
  { apply list_elem_of_In. vm_compute. tauto. }
  split; [exact Hns |].
  exact (member_names_distinct _ Hns).
Defined.


(** ** The loading of the file *)

Section Loading.

Lemma bind_Normal {A B} (a : A) (k : A -> outcome B) : Normal a ≫= k = k a.
Proof. reflexivity. Qed.

(** The syntax of lines 2 to 34 denotes the value of [Data]. *)
Lemma eval_initialiser : eval initialiser = namespaces_dup.
Proof. vm_compute. reflexivity. Qed.

(** A script of one [var] statement: the two checks, the creation of
    the binding, the assignment. *)
Lemma run_var (x : string) (e : expr) (σ : genv) :
  run_script [SVar x e] σ
  = if has_lexical_declaration x σ then Throw SyntaxError
    else if can_declare_global_var x σ
         then put_value x (eval e) (create_global_var_binding x σ)
         else Throw TypeError.
Proof.
  unfold run_script, global_declaration_instantiation.
  cbn [map declared existsb forallb foldl].
  rewrite orb_false_r, andb_true_r.
  destruct (has_lexical_declaration x σ); [done |].
  destruct (can_declare_global_var x σ); [| done].
  rewrite bind_Normal. cbn [exec_stmts exec_stmt].
  by destruct (put_value x (eval e) (create_global_var_binding x σ)).
Qed.

(** The property that the assignment finds once the binding has been
    created. *)
Lemma lookup_created (x : string) (σ : genv) :
  props (create_global_var_binding x σ) !! x
  = match props σ !! x with
    | Some p => Some p
    | None =>
        if extensible σ then Some (PData (Known VUndefined) true true false)
        else None
    end.
Proof.
  unfold create_global_var_binding. cbn [props].
  destruct (props σ !! x) as [p|] eqn:Hp; [done |].
  destruct (extensible σ); [by rewrite lookup_insert_eq | done].
Qed.

(** The run of a script of one [var] statement, case by case on what
    the environment has under the name. *)
Lemma run_var_cases (x : string) (init : expr) (σ : genv) :
  run_script [SVar x init] σ
  = match lexical σ !! x with
    | Some _ => Throw SyntaxError
    | None =>
        let σ' := create_global_var_binding x σ in
        match props σ !! x with
        | Some (PData _ true e c) =>
            Normal (GEnv (lexical σ)
                         (<[x := PData (Known (eval init)) true e c]> (props σ))
                         (extensible σ) ({[x]} ∪ var_names σ))
        | Some (PData _ false _ _) => Normal σ'
        | Some (PAccessor _ (Some f) _ _) => Calls f (eval init) σ'
        | Some (PAccessor _ None _ _) => Normal σ'
        | None =>
            if extensible σ
            then Normal (GEnv (lexical σ)
                              (<[x := PData (Known (eval init)) true true false]>
                                 (props σ))
                              (extensible σ) ({[x]} ∪ var_names σ))
            else Throw TypeError
        end
    end.
Proof.
  rewrite run_var.
  unfold has_lexical_declaration, can_declare_global_var.
  destruct (lexical σ !! x) as [b|] eqn:Hlex.
  { by rewrite bool_decide_eq_true_2. }
  rewrite bool_decide_eq_false_2 by (by intros [? ?]).
  unfold put_value. rewrite lookup_created.
  destruct (props σ !! x) as [[v [] e c | g [f|] e c]|] eqn:Hp; try done.
  - unfold create_global_var_binding. cbn [lexical props extensible var_names].
    by rewrite Hp.
  - destruct (extensible σ) eqn:Hext; [| done].
    unfold create_global_var_binding. cbn [lexical props extensible var_names].
    rewrite Hp, Hext. by rewrite insert_insert_eq.
Qed.

(** The same for the file. *)
Lemma run_file (σ : genv) :
  run_script file σ
  = match lexical σ !! "namespaces_dup" with
    | Some _ => Throw SyntaxError
    | None =>
        let σ' := create_global_var_binding "namespaces_dup" σ in
        match props σ !! "namespaces_dup" with
        | Some (PData _ true e c) =>
            Normal (GEnv (lexical σ)
                         (<["namespaces_dup" := PData (Known namespaces_dup) true e c]>
                            (props σ))
                         (extensible σ) ({["namespaces_dup"]} ∪ var_names σ))
        | Some (PData _ false _ _) => Normal σ'
        | Some (PAccessor _ (Some f) _ _) => Calls f namespaces_dup σ'
        | Some (PAccessor _ None _ _) => Normal σ'
        | None =>
            if extensible σ
            then Normal (GEnv (lexical σ)
                              (<["namespaces_dup" := PData (Known namespaces_dup) true true false]>
                                 (props σ))
                              (extensible σ) ({["namespaces_dup"]} ∪ var_names σ))
            else Throw TypeError
        end
    end.
Proof. unfold file. by rewrite run_var_cases, eval_initialiser. Qed.

End Loading.

(** C5, as stated, fails: what the variable holds after a load depends
    on the environment.  Loaded into a fresh environment it holds the
    value of the literal; loaded where [namespaces_dup] is a read-only
    property holding [null], the load ends normally and it still holds
    [null]. *)
Lemma bound_value_counterexample :
  bound_after "namespaces_dup" fresh_env = Normal (Some (Known namespaces_dup)) /\
  bound_after "namespaces_dup" env_read_only = Normal (Some (Known VNull)) /\
  Known namespaces_dup <> Known VNull.
Proof. split; [by_evaluation |]. split; [by_evaluation | done]. Qed.

(** C5, amended: the file declares one variable, and its initialiser is
    a literal whose value is the same fixed value whatever the
    environment.  Where the name has no lexical declaration and is
    either no property of an extensible global object or a writable
    data property, the load ends normally and the variable holds that
    value; a property that is not writable keeps what it held; and a
    setter, when the run calls one, is given that value. *)
Theorem file_defines_one_constant :
  map declared file = ["namespaces_dup"] /\
  eval initialiser = namespaces_dup /\
  (forall σ : genv,
     lexical σ !! "namespaces_dup" = None ->
     (props σ !! "namespaces_dup" = None /\ extensible σ = true) \/
     (exists v e c, props σ !! "namespaces_dup" = Some (PData v true e c)) ->
     bound_after "namespaces_dup" σ = Normal (Some (Known namespaces_dup))) /\
  (forall (σ : genv) v e c,
     lexical σ !! "namespaces_dup" = None ->
     props σ !! "namespaces_dup" = Some (PData v false e c) ->
     bound_after "namespaces_dup" σ = Normal (Some v)) /\
  (forall (σ σ' : genv) f v,
     run_script file σ = Calls f v σ' -> v = namespaces_dup).
Proof.
  split; [reflexivity |]. split; [apply eval_initialiser |].
  split; [| split].
  - intros σ Hlex Hcase. unfold bound_after. rewrite run_file, Hlex.
    destruct Hcase as [[Hp Hext] | (v & e & c & Hp)]; cbn zeta; rewrite Hp.
    + rewrite Hext. cbn. unfold global_value. cbn [props].
      by rewrite lookup_insert_eq.
    + cbn. unfold global_value. cbn [props]. by rewrite lookup_insert_eq.
  - intros σ v e c Hlex Hp. unfold bound_after. rewrite run_file, Hlex.
    cbn zeta. rewrite Hp. cbn. unfold global_value.
    by rewrite lookup_created, Hp.
  - intros σ σ' f v. rewrite run_file.
    destruct (lexical σ !! "namespaces_dup"); [done |]. cbn zeta.
    destruct (props σ !! "namespaces_dup") as [[? [] ? ? | ? [?|] ? ?]|];
      try done; [by intros [= _ <- _] |].
    by destruct (extensible σ).
Qed.

Lemma file_defines_one_constant_witness :
  lexical fresh_env !! "namespaces_dup" = None /\
  props fresh_env !! "namespaces_dup" = None /\
  extensible fresh_env = true /\
  bound_after "namespaces_dup" fresh_env = Normal (Some (Known namespaces_dup)).
Proof.
  split; [reflexivity |]. split; [reflexivity |]. split; [reflexivity |].
  apply (proj1 (proj2 (proj2 file_defines_one_constant)) fresh_env);
    [reflexivity | left; split; reflexivity].
Defined.

(** C6, as stated, fails: the load throws a [SyntaxError] where an
    earlier script has declared [let namespaces_dup], and a
    [TypeError] where the name is no property of a global object that
    cannot be extended. *)
Lemma load_throws_counterexample :
  run_script file env_with_let = Throw SyntaxError /\
  run_script file env_not_extensible = Throw TypeError.
Proof. split; by_evaluation. Qed.

(** C6, amended: the load of the file throws in two situations only,
    both found before the statement runs: a [SyntaxError] exactly when
    the name has a lexical declaration, a [TypeError] exactly when it
    has none, is no property of the global object, and that object
    cannot be extended.  In every other environment the run ends
    normally, except that where the name is an accessor property with
    a setter it ends in the call of that setter. *)
Theorem file_throws_exactly_when (σ : genv) :
  (run_script file σ = Throw SyntaxError <->
     is_Some (lexical σ !! "namespaces_dup")) /\
  (run_script file σ = Throw TypeError <->
     lexical σ !! "namespaces_dup" = None /\
     props σ !! "namespaces_dup" = None /\ extensible σ = false) /\
  ((exists f σ', run_script file σ = Calls f namespaces_dup σ') <->
     lexical σ !! "namespaces_dup" = None /\
     exists g f e c,
       props σ !! "namespaces_dup" = Some (PAccessor g (Some f) e c)) /\
  ((exists σ', run_script file σ = Normal σ') <->
     lexical σ !! "namespaces_dup" = None /\
     ((props σ !! "namespaces_dup" = None /\ extensible σ = true) \/
      (exists v w e c, props σ !! "namespaces_dup" = Some (PData v w e c)) \/
      (exists g e c, props σ !! "namespaces_dup" = Some (PAccessor g None e c)))).
Proof.
  rewrite run_file. unfold is_Some.
  destruct (lexical σ !! "namespaces_dup") as [b|];
    [| cbn zeta;
       destruct (props σ !! "namespaces_dup") as [[v [] e c | g [f|] e c]|];
       [| | | | destruct (extensible σ)]];
    repeat split;
    try (intros; repeat match goal with
                        | H : _ /\ _ |- _ => destruct H
                        | H : _ \/ _ |- _ => destruct H
                        | H : ex _ |- _ => destruct H
                        end; discriminate);
    eauto 10.
Qed.

Lemma file_throws_exactly_when_witness :
  lexical fresh_env !! "namespaces_dup" = None /\
  props fresh_env !! "namespaces_dup" = None /\
  extensible fresh_env = true /\
  exists σ', run_script file fresh_env = Normal σ'.
Proof.
  split; [reflexivity |]. split; [reflexivity |]. split; [reflexivity |].
  apply (proj2 (proj2 (proj2 (proj2 (file_throws_exactly_when fresh_env))))).
  split; [reflexivity | left; split; reflexivity].
Defined.




(** ** Further properties of the index *)

(** X1: in the whole tree the entries whose third component is [null]
    are exactly those whose target is an anchor inside a page; an entry
    with a list or a string there links to a page itself. *)
Theorem leaves_are_anchors (e : value) :
  e ∈ all_entries namespaces_dup ->
  exists t c,
    target e = Some t /\ child_slot e = Some c /\
    (c = VNull <-> is_Some (fragment_of t)).
Proof.
  intros He.
  assert (leaf_iff_anchor e = true) as Hok.
  { revert He. apply forallb_elem_of. by_evaluation. }
  unfold leaf_iff_anchor in Hok.
  destruct (target e) as [t|]; [| done].
  destruct (child_slot e) as [c|]; [| done].
  exists t, c. split; [done |]. split; [done |].
  apply Bool.eqb_prop in Hok.
  destruct (fragment_of t) as [f|]; destruct c; simpl in Hok; try done;
    split; try done; try (by intros [? ?]); by eexists.
Qed.

Lemma leaves_are_anchors_witness :
  VArr [VStr "Wave"; VStr "namespace_wave.html"; VStr "namespace_wave"]
    ∈ all_entries namespaces_dup /\
  exists t c,
    Some "namespace_wave.html" = Some t /\
    Some (VStr "namespace_wave") = Some c /\
    (c = VNull <-> is_Some (fragment_of t)).
Proof.
  assert (VArr [VStr "Wave"; VStr "namespace_wave.html"; VStr "namespace_wave"]
            ∈ all_entries namespaces_dup) as H.
  { apply list_elem_of_In. vm_compute. tauto. }
  split; [exact H | exact (leaves_are_anchors _ H)].
Defined.

(** X2: where the third component of an entry is a string, the target
    of the entry is that string followed by [".html"]. *)
Theorem slot_string_names_page (e : value) (s : string) :
  e ∈ all_entries namespaces_dup ->
  child_slot e = Some (VStr s) ->
  target e = Some (s +:+ ".html").
Proof.
  intros He Hs.
  assert (slot_names_page e = true) as Hok.
  { revert He. apply forallb_elem_of. by_evaluation. }
  unfold slot_names_page in Hok. rewrite Hs in Hok.
  destruct (target e) as [t|]; [| done].
  by apply String.eqb_eq in Hok as ->.
Qed.

Lemma slot_string_names_page_witness :
  VArr [VStr "Song"; VStr "namespace_song.html"; VStr "namespace_song"]
    ∈ all_entries namespaces_dup /\
  Some "namespace_song.html" = Some ("namespace_song" +:+ ".html").
Proof.
  assert (VArr [VStr "Song"; VStr "namespace_song.html"; VStr "namespace_song"]
            ∈ all_entries namespaces_dup) as H.
  { apply list_elem_of_In. vm_compute. tauto. }
  split; [exact H |].
  exact (slot_string_names_page _ "namespace_song" H eq_refl).
Defined.

(** X3: the page of every link target in the tree is the target of a
    top-level entry: no entry links into a page the index does not
    list. *)
Theorem pages_are_listed (e : value) (t : string) :
  e ∈ all_entries namespaces_dup ->
  target e = Some t ->
  exists ns, ns ∈ elements namespaces_dup /\ target ns = Some (page_of t).
Proof.
  intros He Ht.
  assert (page_listed (elements namespaces_dup) e = true) as Hok.
  { revert He. apply forallb_elem_of. by_evaluation. }
  unfold page_listed in Hok. rewrite Ht in Hok.
  apply bool_decide_eq_true in Hok. unfold targets in Hok.
  apply list_elem_of_omap in Hok as (ns & Hns & Htgt). by exists ns.
Qed.

Lemma pages_are_listed_witness :
  VArr [VStr "generate_song";
        VStr "namespacemain.html#af46f5bb2c760f56a5e77da4c17ec1c69"; VNull]
    ∈ all_entries namespaces_dup /\
  exists ns,
    ns ∈ elements namespaces_dup /\ target ns = Some "namespacemain.html".
Proof.
  assert (VArr [VStr "generate_song";
                VStr "namespacemain.html#af46f5bb2c760f56a5e77da4c17ec1c69"; VNull]
            ∈ all_entries namespaces_dup) as H.
  { apply list_elem_of_In. vm_compute. tauto. }
  split; [exact H |].
  exact (pages_are_listed _ _ H eq_refl).
Defined.

(** X4: display names do not identify entries across the tree: [main]
    names both the top-level entry of line 20 and the member of line
    29, which have different targets. *)
Theorem display_names_repeat :
  ~ NoDup (labels (all_entries namespaces_dup)) /\
  exists e1 e2,
    e1 ∈ elements namespaces_dup /\ e2 ∈ members e1 /\
    label e1 = Some "main" /\ label e2 = Some "main" /\
    target e1 <> target e2.
Proof.
  split.
  - apply (bool_decide_eq_false_1 _). by_evaluation.
  - exists (VArr [VStr "main"; VStr "namespacemain.html"; VArr main_members]),
      (VArr [VStr "main";
             VStr "namespacemain.html#aa7a58ac748c5293faa4d77a82b94d161"; VNull]).
    split; [apply list_elem_of_In; vm_compute; tauto |].
    split; [apply list_elem_of_In; vm_compute; tauto |].
    by repeat split.
Qed.

(** X5: the order of C8 does not extend to the member lists: the
    members of [main] are in strictly increasing order of name, but
    under [AudioProcessor] the eleventh member, audio_stereo_mix_in, is
    followed by adsr_attack_samples, which precedes it. *)
Theorem member_order :
  StronglySorted (fun s t => ci_lt s t = true) (labels main_members) /\
  labels AudioProcessor_members !! 10 = Some "audio_stereo_mix_in" /\
  labels AudioProcessor_members !! 11 = Some "adsr_attack_samples" /\
  ci_lt "adsr_attack_samples" "audio_stereo_mix_in" = true.
Proof.
  split; [| by repeat split].
  change (labels main_members)
    with ["apply_adsr_envelope"; "apply_rise_fall_envelope"; "apply_stereo";
          "compare_two_wave_files"; "create_waveform"; "generate_song";
          "get_filename"; "get_wave_parameters"; "main"; "print_main_menu"].
  repeat (constructor; [| repeat (constructor; [by_evaluation |]); constructor]).
  constructor.
Qed.


(** ** Further properties of the loading *)

(** X6: running the file again on the environment it has produced
    changes nothing: loading the file twice is the same as loading it
    once. *)
Theorem file_idempotent (σ : genv) :
  run_script file σ ≫= run_script file = run_script file σ.
Proof.
  rewrite (run_file σ).
  destruct (lexical σ !! "namespaces_dup") as [b|] eqn:Hlex; [done |].
  cbn zeta.
  destruct (props σ !! "namespaces_dup") as [[v [] e c | g [f|] e c]|] eqn:Hp;
    [| | | | destruct (extensible σ) eqn:Hext]; try done;
    rewrite bind_Normal, run_file; unfold create_global_var_binding;
    cbn [lexical props extensible var_names];
    rewrite Hlex, ?Hp, ?lookup_insert_eq; cbn zeta;
    rewrite ?Hp, ?insert_insert_eq;
    do 2 f_equal; by rewrite (assoc_L (∪)), union_idemp_L.
Qed.

Section Commuting.


End Commuting.


